(** * Verification of the ch-5 rectangle examples of hello-rust

    Two programs are embedded here:
    - [src/ch-5/3-struct-param.rs]: builds [Rect { width: 30, height: 50 }],
      calls [area(&rect)] and prints the result;
    - [src/ch-5/debug-print.rs]: builds the same [Rect] (with
      [#[derive(Debug)]]) and prints it with [{:?}].

    [u32] values are integers [Z] in [0, 2^32).  The multiplication
    [rect.width * rect.height] follows Rust's semantics for [u32]: in a
    debug build an overflow panics ("attempt to multiply with overflow"),
    in a release build it wraps modulo [2^32].  A panic ends the program
    with exit code 101. *)

From Stdlib Require Import ZArith String Ascii List Lia.
Import ListNotations.
Open Scope string_scope.
Open Scope Z_scope.

(** ** Machine integers *)

Definition u32_modulus : Z := 2 ^ 32.
Definition u32_max : Z := u32_modulus - 1.

Definition in_u32 (x : Z) : Prop := 0 <= x <= u32_max.

(** Build profile: [Debug] has overflow checks on, [Release] has them off. *)
Inductive build_mode := Debug | Release.

(** Result of [a * b] on [u32]: [None] is the overflow panic. *)
Definition u32_mul (mode : build_mode) (a b : Z) : option Z :=
  match mode with
  | Debug => if a * b <=? u32_max then Some (a * b) else None
  | Release => Some ((a * b) mod u32_modulus)
  end.

(** ** Data model *)

(** [struct Rect { width: u32, height: u32 }] *)
Record Rect := mkRect { width : Z; height : Z }.

Definition rect_wf (r : Rect) : Prop := in_u32 (width r) /\ in_u32 (height r).

(** ** A small machine: stack slots holding [Rect] values and stdout *)

Definition loc := nat.

Record machine := mkMachine { slots : list Rect; stdout : string }.

Inductive outcome (A : Type) :=
| Done (a : A) (m : machine)
| Panicked (msg : string) (m : machine).
Arguments Done {A} a m.
Arguments Panicked {A} msg m.

Definition M (A : Type) := machine -> outcome A.

Definition ret {A} (a : A) : M A := fun m => Done a m.

Definition bind {A B} (c : M A) (k : A -> M B) : M B :=
  fun m => match c m with
           | Done a m' => k a m'
           | Panicked msg m' => Panicked msg m'
           end.

Notation "x <- c ;; k" := (bind c (fun x => k))
  (at level 61, c at next level, right associativity).

Definition panic {A} (msg : string) : M A := fun m => Panicked msg m.

(** [let x = Rect { .. };]: the value gets a fresh stack slot. *)
Definition alloc (r : Rect) : M loc :=
  fun m => Done (length (slots m)) (mkMachine (app (slots m) [r]) (stdout m)).

(** Reading through a shared reference [&Rect]. *)
Definition load (l : loc) : M Rect :=
  fun m => match nth_error (slots m) l with
           | Some r => Done r m
           | None => Panicked "dangling reference" m
           end.

Definition newline : string := String (ascii_of_nat 10) EmptyString.

(** [println!]: appends the line and a newline to stdout. *)
Definition println (s : string) : M unit :=
  fun m => Done tt (mkMachine (slots m) (stdout m ++ s ++ newline)).

Definition mul_u32 (mode : build_mode) (a b : Z) : M Z :=
  match u32_mul mode a b with
  | Some c => ret c
  | None => panic "attempt to multiply with overflow"
  end.

(** ** Formatting *)

Definition digit_char (d : Z) : ascii := ascii_of_nat (48 + Z.to_nat d).

Fixpoint display_aux (fuel : nat) (n : Z) : string :=
  match fuel with
  | O => EmptyString
  | S f =>
      let c := String (digit_char (n mod 10)) EmptyString in
      if n / 10 =? 0 then c else display_aux f (n / 10) ++ c
  end.

(** [Display] for [u32]: decimal digits (a [u32] has at most 10). *)
Definition display_u32 (n : Z) : string := display_aux 10 n.

(** [Formatter::debug_struct]: [Name { f1: v1, f2: v2 }], or [Name] alone
    for a struct without fields. *)
Fixpoint debug_fields (fs : list (string * string)) : string :=
  match fs with
  | [] => EmptyString
  | [(k, v)] => k ++ ": " ++ v
  | (k, v) :: rest => k ++ ": " ++ v ++ ", " ++ debug_fields rest
  end.

Definition debug_struct (name : string) (fs : list (string * string)) : string :=
  match fs with
  | [] => name
  | _ => name ++ " { " ++ debug_fields fs ++ " }"
  end.

(** [#[derive(Debug)]] on [Rect]: fields in declaration order, each value
    with the [Debug] of [u32], which is its decimal form. *)
Definition fmt_debug_Rect (r : Rect) : string :=
  debug_struct "Rect" [("width", display_u32 (width r)); ("height", display_u32 (height r))].

(** ** 3-struct-param.rs *)

(** [fn area(rect: &Rect) -> u32 { rect.width * rect.height }] *)
Definition area (mode : build_mode) (rect : loc) : M Z :=
  r <- load rect ;;
  mul_u32 mode (width r) (height r).

Definition main_area (mode : build_mode) : M unit :=
  rect <- alloc (mkRect 30 50) ;;
  a <- area mode rect ;;
  println ("The area of the rectangle is " ++ display_u32 a ++ ".").

(** ** debug-print.rs *)

Definition main_debug : M unit :=
  rect <- alloc (mkRect 30 50) ;;
  r <- load rect ;;
  println ("Rect is " ++ fmt_debug_Rect r).

(** ** Running a program *)

Definition initial : machine := mkMachine [] EmptyString.

Record run_result := mkRun { out : string; exit_code : Z }.

(** Returning from [main] exits with 0, a panic with 101. *)
Definition run (p : M unit) : run_result :=
  match p initial with
  | Done _ m => mkRun (stdout m) 0
  | Panicked _ m => mkRun (stdout m) 101
  end.

(** A machine where slot [l] holds [r]. *)
Definition holds (m : machine) (l : loc) (r : Rect) : Prop :=
  nth_error (slots m) l = Some r.

(** ** Reading printed text back

    These readers are not part of the programs: they invert the text the
    programs print, to show that the output determines the values. *)

Definition is_digit (c : ascii) : bool :=
  (48 <=? nat_of_ascii c)%nat && (nat_of_ascii c <=? 57)%nat.

Definition digit_val (c : ascii) : Z := Z.of_nat (nat_of_ascii c) - 48.

(** Reads the longest run of decimal digits, returning its value (on top
    of [acc]) and the rest of the string. *)
Fixpoint read_num (s : string) (acc : Z) : Z * string :=
  match s with
  | EmptyString => (acc, EmptyString)
  | String c s' => if is_digit c then read_num s' (acc * 10 + digit_val c) else (acc, s)
  end.

(** A whole, non-empty string of digits. *)
Definition parse_dec (s : string) : option Z :=
  match s with
  | EmptyString => None
  | _ => match read_num s 0 with
         | (v, EmptyString) => Some v
         | _ => None
         end
  end.

Fixpoint strip_prefix (p s : string) : option string :=
  match p, s with
  | EmptyString, _ => Some s
  | String c p', String d s' => if ascii_dec c d then strip_prefix p' s' else None
  | String _ _, EmptyString => None
  end.

(** Inverse of [fmt_debug_Rect]. *)
Definition parse_debug_Rect (s : string) : option Rect :=
  match strip_prefix "Rect { width: " s with
  | None => None
  | Some s1 =>
      let (w, s2) := read_num s1 0 in
      match strip_prefix ", height: " s2 with
      | None => None
      | Some s3 =>
          let (h, s4) := read_num s3 0 in
          if string_dec s4 " }" then Some (mkRect w h) else None
      end
  end.

(** ** Helper lemmas *)

Lemma area_load (mode : build_mode) (m : machine) (l : loc) (r : Rect) :
  holds m l r -> area mode l m = mul_u32 mode (width r) (height r) m.
Proof. unfold holds, area, bind, load. intros ->. reflexivity. Qed.

Lemma mul_u32_exact (mode : build_mode) (m : machine) (a b : Z) :
  0 <= a -> 0 <= b -> a * b <= u32_max ->
  mul_u32 mode a b m = Done (a * b) m.
Proof.
  intros Ha Hb Hab. unfold mul_u32, u32_mul.
  destruct mode.
  - apply Z.leb_le in Hab. rewrite Hab. reflexivity.
  - rewrite Z.mod_small; [reflexivity|].
    unfold u32_max in Hab. split; [nia | lia].
Qed.

Lemma mul_u32_comm (mode : build_mode) (a b : Z) :
  mul_u32 mode a b = mul_u32 mode b a.
Proof. unfold mul_u32, u32_mul. now rewrite Z.mul_comm. Qed.

Lemma mul_u32_outcome (mode : build_mode) (m : machine) (a b : Z) :
  (exists c, mul_u32 mode a b m = Done c m) \/
  mul_u32 mode a b m = Panicked "attempt to multiply with overflow" m.
Proof.
  unfold mul_u32. destruct (u32_mul mode a b) as [c|].
  - left. exists c. reflexivity.
  - right. reflexivity.
Qed.

(** A machine with both orientations of the literal of [main]. *)
Definition sample : machine := mkMachine [mkRect 30 50; mkRect 50 30] EmptyString.

(** Two rectangles of the same height, the second one wider. *)
Definition sample_wide : machine := mkMachine [mkRect 30 50; mkRect 50 50] EmptyString.

(** ** Claims *)

(** C1: for [w], [h] in the [u32] range with [w * h] not overflowing,
    [area] on a [Rect { width: w, height: h }] returns exactly [w * h],
    itself a [u32]; this holds in both build profiles and leaves the
    machine as it was. *)
Theorem area_exact (mode : build_mode) (m : machine) (l : loc) (w h : Z) :
  in_u32 w -> in_u32 h -> w * h <= u32_max ->
  holds m l (mkRect w h) ->
  area mode l m = Done (w * h) m /\ in_u32 (w * h).
Proof.
  unfold in_u32. intros Hw Hh Hwh Hl.
  rewrite (area_load _ _ _ _ Hl). simpl.
  split; [apply mul_u32_exact; lia | nia].
Qed.

Lemma area_exact_witness :
  (in_u32 30 /\ in_u32 50 /\ 30 * 50 <= u32_max /\ holds sample 0%nat (mkRect 30 50)) /\
  (area Debug 0%nat sample = Done (30 * 50) sample /\ in_u32 (30 * 50)).
Proof.
  split.
  - unfold in_u32, u32_max, u32_modulus, holds. simpl. repeat split; lia || reflexivity.
  - apply (area_exact Debug sample 0%nat 30 50);
      unfold in_u32, u32_max, u32_modulus, holds; simpl; lia || reflexivity.
Defined.

(** C2: [area] on the literal [Rect { width: 30, height: 50 }] of [main]
    returns 1500, in both build profiles. *)
Theorem area_main_literal (mode : build_mode) (m : machine) (l : loc) :
  holds m l (mkRect 30 50) -> area mode l m = Done 1500 m.
Proof.
  intros Hl. rewrite (area_load _ _ _ _ Hl). simpl.
  apply (mul_u32_exact mode m 30 50); unfold u32_max, u32_modulus; lia.
Qed.

Lemma area_main_literal_witness :
  holds sample 0%nat (mkRect 30 50) /\ area Release 0%nat sample = Done 1500 sample.
Proof.
  split; [reflexivity | apply (area_main_literal Release sample 0%nat); reflexivity].
Defined.

(** C3: [area] is commutative in the two fields.  The statement needs no
    overflow hypothesis: both orientations give the same outcome, also
    when they both panic or both wrap. *)
Theorem area_comm (mode : build_mode) (m : machine) (l1 l2 : loc) (w h : Z) :
  holds m l1 (mkRect w h) -> holds m l2 (mkRect h w) ->
  area mode l1 m = area mode l2 m.
Proof.
  intros H1 H2. rewrite (area_load _ _ _ _ H1), (area_load _ _ _ _ H2).
  simpl. now rewrite mul_u32_comm.
Qed.

Lemma area_comm_witness :
  (holds sample 0%nat (mkRect 30 50) /\ holds sample 1%nat (mkRect 50 30)) /\
  area Debug 0%nat sample = area Debug 1%nat sample.
Proof.
  split; [split; reflexivity | apply (area_comm Debug sample 0%nat 1%nat 30 50); reflexivity].
Defined.

(** C4: a zero width gives a zero area, for every height. *)
Theorem area_zero_width (mode : build_mode) (m : machine) (l : loc) (h : Z) :
  holds m l (mkRect 0 h) -> area mode l m = Done 0 m.
Proof.
  intros Hl. rewrite (area_load _ _ _ _ Hl).
  unfold mul_u32, u32_mul. destruct mode; reflexivity.
Qed.

Lemma area_zero_width_witness :
  holds (mkMachine [mkRect 0 7] EmptyString) 0%nat (mkRect 0 7) /\
  area Debug 0%nat (mkMachine [mkRect 0 7] EmptyString) = Done 0 (mkMachine [mkRect 0 7] EmptyString).
Proof.
  split; [reflexivity | apply (area_zero_width Debug _ 0%nat 7); reflexivity].
Defined.

(** C5: [area] only reads through its [&Rect]: whatever the outcome, the
    machine is the one before the call, and when the call returns the
    caller reads back the same [Rect], with the same [width] and
    [height]. *)
Theorem area_frame (mode : build_mode) (m : machine) (l : loc) (r : Rect) :
  holds m l r ->
  match area mode l m with
  | Done _ m' => m' = m /\ load l m' = Done r m' /\
                 (exists r', holds m' l r' /\ width r' = width r /\ height r' = height r)
  | Panicked _ m' => m' = m
  end.
Proof.
  intros Hl. rewrite (area_load _ _ _ _ Hl).
  destruct (mul_u32_outcome mode m (width r) (height r)) as [[c ->] | ->].
  - repeat split.
    + unfold load. now rewrite Hl.
    + exists r. auto.
  - reflexivity.
Qed.

Lemma area_frame_witness :
  holds sample 1%nat (mkRect 50 30) /\
  match area Debug 1%nat sample with
  | Done _ m' => m' = sample /\ load 1%nat m' = Done (mkRect 50 30) m' /\
                 (exists r', holds m' 1%nat r' /\ width r' = 50 /\ height r' = 30)
  | Panicked _ m' => m' = sample
  end.
Proof.
  split; [reflexivity | apply (area_frame Debug sample 1%nat (mkRect 50 30)); reflexivity].
Defined.

(** C6: the area program prints exactly the line
    [The area of the rectangle is 1500.] and exits with 0, in both build
    profiles. *)
Theorem main_area_output (mode : build_mode) :
  run (main_area mode) = mkRun ("The area of the rectangle is 1500." ++ newline) 0.
Proof. destruct mode; reflexivity. Qed.

(** C7: the debug printer prints exactly the line
    [Rect is Rect { width: 30, height: 50 }] and exits with 0; [width]
    and its value come before [height] and its value. *)
Theorem main_debug_output :
  run main_debug = mkRun ("Rect is Rect { width: 30, height: 50 }" ++ newline) 0 /\
  fmt_debug_Rect (mkRect 30 50) = "Rect { " ++ "width: 30" ++ ", " ++ "height: 50" ++ " }".
Proof. split; reflexivity. Qed.

(** C8: the multiplication in [area] overflows for some [u32] fields
    (65536 * 65536 = 2^32) and nothing in [area] guards it: a debug build
    takes the overflow panic, a release build returns the wrapped value,
    which differs from the true product. *)
Theorem area_overflow_reachable :
  exists w h, in_u32 w /\ in_u32 h /\ w * h > u32_max /\
  forall m l, holds m l (mkRect w h) ->
    area Debug l m = Panicked "attempt to multiply with overflow" m /\
    area Release l m = Done ((w * h) mod u32_modulus) m /\
    (w * h) mod u32_modulus <> w * h.
Proof.
  exists 65536, 65536.
  unfold in_u32, u32_max, u32_modulus.
  split; [lia|]. split; [lia|]. split; [lia|].
  intros m l Hl. rewrite !(area_load _ _ _ _ Hl).
  split; [reflexivity|]. split; [reflexivity|].
  vm_compute. discriminate.
Qed.

(** C9: with the literals 30 and 50 the multiplication stays in range, and
    both programs run to the end of [main] without a panic, in both
    build profiles. *)
Theorem literals_never_fail :
  forall mode,
    u32_mul mode 30 50 = Some 1500 /\
    (exists m, main_area mode initial = Done tt m) /\
    (exists m, main_debug initial = Done tt m).
Proof.
  intros mode. split; [destruct mode; reflexivity|].
  split; eexists; destruct mode; reflexivity.
Qed.

(** C10: [area] is monotone in each field when the larger product does
    not overflow. *)
Theorem area_monotone (mode : build_mode) (m : machine) (l1 l2 : loc) (a1 a2 b : Z) :
  in_u32 a1 -> in_u32 a2 -> in_u32 b -> a1 <= a2 -> a2 * b <= u32_max ->
  (holds m l1 (mkRect a1 b) -> holds m l2 (mkRect a2 b) ->
     exists x1 x2, area mode l1 m = Done x1 m /\ area mode l2 m = Done x2 m /\ x1 <= x2) /\
  (holds m l1 (mkRect b a1) -> holds m l2 (mkRect b a2) ->
     exists x1 x2, area mode l1 m = Done x1 m /\ area mode l2 m = Done x2 m /\ x1 <= x2).
Proof.
  unfold in_u32. intros H1 H2 Hb Hle Hov.
  split; intros L1 L2;
    rewrite (area_load _ _ _ _ L1), (area_load _ _ _ _ L2); simpl.
  - exists (a1 * b), (a2 * b).
    split; [apply mul_u32_exact; nia|].
    split; [apply mul_u32_exact; nia | nia].
  - exists (b * a1), (b * a2).
    split; [apply mul_u32_exact; nia|].
    split; [apply mul_u32_exact; nia | nia].
Qed.

Lemma area_monotone_witness :
  (in_u32 30 /\ in_u32 50 /\ in_u32 50 /\ 30 <= 50 /\ 50 * 50 <= u32_max) /\
  (holds sample_wide 0%nat (mkRect 30 50) /\ holds sample_wide 1%nat (mkRect 50 50)) /\
  (exists x1 x2, area Debug 0%nat sample_wide = Done x1 sample_wide /\
                 area Debug 1%nat sample_wide = Done x2 sample_wide /\ x1 <= x2).
Proof.
  assert (H : in_u32 30 /\ in_u32 50 /\ in_u32 50 /\ 30 <= 50 /\ 50 * 50 <= u32_max)
    by (unfold in_u32, u32_max, u32_modulus; lia).
  destruct H as (A & B & C & D & E).
  split; [repeat split; assumption|].
  split; [split; reflexivity|].
  exact (proj1 (area_monotone Debug sample_wide 0%nat 1%nat 30 50 50 A B C D E)
           eq_refl eq_refl).
Defined.

(** ** Further properties of the programs *)

Lemma str_app_assoc (a b c : string) : (a ++ b) ++ c = a ++ (b ++ c).
Proof. induction a as [|x a IH]; simpl; [reflexivity | now rewrite IH]. Qed.

Lemma str_app_nil (a : string) : a ++ EmptyString = a.
Proof. induction a as [|x a IH]; simpl; [reflexivity | now rewrite IH]. Qed.

Lemma digit_char_ok (d : Z) :
  0 <= d < 10 -> is_digit (digit_char d) = true /\ digit_val (digit_char d) = d.
Proof.
  intros Hd. unfold is_digit, digit_val, digit_char.
  rewrite nat_ascii_embedding by lia. split.
  - apply andb_true_intro. split; apply Nat.leb_le; lia.
  - rewrite Nat2Z.inj_add, Z2Nat.id by lia. lia.
Qed.

Lemma read_num_display_aux (f : nat) (n : Z) (rest : string) (acc : Z) :
  0 <= n < 10 ^ Z.of_nat f ->
  exists k : nat,
    read_num (display_aux f n ++ rest) acc = read_num rest (acc * 10 ^ Z.of_nat k + n).
Proof.
  revert n rest acc. induction f as [|f IH]; intros n rest acc Hn.
  - exists O. cbn [display_aux append]. f_equal. simpl in Hn. lia.
  - rewrite Nat2Z.inj_succ, Z.pow_succ_r in Hn by lia.
    pose proof (Z.div_mod n 10 ltac:(lia)) as Hdm.
    pose proof (Z.mod_pos_bound n 10 ltac:(lia)) as Hm.
    destruct (digit_char_ok (n mod 10) Hm) as [Hdig Hval].
    cbn [display_aux].
    destruct (n / 10 =? 0) eqn:Hq.
    + apply Z.eqb_eq in Hq. exists 1%nat. cbn [append read_num]. rewrite Hdig, Hval.
      f_equal. lia.
    + apply Z.eqb_neq in Hq.
      destruct (IH (n / 10) (String (digit_char (n mod 10)) EmptyString ++ rest) acc)
        as [k Hk]; [lia|].
      exists (S k). rewrite str_app_assoc, Hk. cbn [append read_num]. rewrite Hdig, Hval.
      f_equal. rewrite Nat2Z.inj_succ, Z.pow_succ_r by lia. lia.
Qed.

Lemma read_num_display_u32 (n : Z) (rest : string) :
  in_u32 n -> read_num (display_u32 n ++ rest) 0 = read_num rest n.
Proof.
  unfold in_u32, u32_max, u32_modulus. intros Hn.
  destruct (read_num_display_aux 10 n rest 0) as [k Hk]; [simpl; lia|].
  unfold display_u32. rewrite Hk. f_equal.
Qed.

Lemma display_aux_nonempty (f : nat) (n : Z) :
  exists c s, display_aux (S f) n = String c s.
Proof.
  cbn [display_aux]. destruct (n / 10 =? 0); [eauto|].
  destruct (display_aux f (n / 10)); simpl; eauto.
Qed.

Lemma strip_prefix_app (p s : string) : strip_prefix p (p ++ s) = Some s.
Proof.
  induction p as [|c p IH]; simpl; [reflexivity|].
  destruct (ascii_dec c c); [exact IH | contradiction].
Qed.

Lemma fmt_debug_Rect_eq (r : Rect) :
  fmt_debug_Rect r =
  "Rect { width: " ++ (display_u32 (width r) ++
    (", height: " ++ (display_u32 (height r) ++ " }"))).
Proof.
  unfold fmt_debug_Rect, debug_struct, debug_fields.
  rewrite !str_app_assoc. reflexivity.
Qed.



(** [area] in a release build never panics on [u32] fields: it returns the
    product modulo [2^32], which is a [u32], and equals the true product
    exactly when that product fits in [u32]. *)
Theorem area_release_wraps (m : machine) (l : loc) (w h : Z) :
  in_u32 w -> in_u32 h -> holds m l (mkRect w h) ->
  area Release l m = Done ((w * h) mod u32_modulus) m /\
  in_u32 ((w * h) mod u32_modulus) /\
  ((w * h) mod u32_modulus = w * h <-> w * h <= u32_max).
Proof.
  unfold in_u32. intros Hw Hh Hl. rewrite (area_load _ _ _ _ Hl).
  split; [reflexivity|].
  unfold u32_max in *.
  pose proof (Z.mod_pos_bound (w * h) u32_modulus ltac:(unfold u32_modulus; lia)).
  split; [lia|]. split.
  - intros E. lia.
  - intros Hle. apply Z.mod_small. nia.
Qed.

Lemma area_release_wraps_witness :
  (in_u32 65536 /\ in_u32 65537 /\ holds (mkMachine [mkRect 65536 65537] EmptyString) 0%nat (mkRect 65536 65537)) /\
  (area Release 0%nat (mkMachine [mkRect 65536 65537] EmptyString) =
     Done ((65536 * 65537) mod u32_modulus) (mkMachine [mkRect 65536 65537] EmptyString) /\
   in_u32 ((65536 * 65537) mod u32_modulus) /\
   ((65536 * 65537) mod u32_modulus = 65536 * 65537 <-> 65536 * 65537 <= u32_max)).
Proof.
  assert (A : in_u32 65536) by (unfold in_u32, u32_max, u32_modulus; lia).
  assert (B : in_u32 65537) by (unfold in_u32, u32_max, u32_modulus; lia).
  split; [split; [exact A | split; [exact B | reflexivity]]|].
  exact (area_release_wraps (mkMachine [mkRect 65536 65537] EmptyString) 0%nat 65536 65537 A B eq_refl).
Defined.

(** On [u32] fields the two build profiles never disagree on a returned
    area: whenever the debug build returns a value, the release build
    returns the same value and leaves the same machine. *)
Theorem area_profiles_agree (m m' : machine) (l : loc) (r : Rect) (a : Z) :
  rect_wf r -> holds m l r ->
  area Debug l m = Done a m' -> area Release l m = Done a m'.
Proof.
  unfold rect_wf, in_u32. intros [Hw Hh] Hl.
  rewrite !(area_load _ _ _ _ Hl). unfold mul_u32, u32_mul, ret, panic.
  destruct (Z.leb_spec (width r * height r) u32_max) as [Hle|Hgt]; [|discriminate].
  intros E. injection E as <- <-. rewrite Z.mod_small; [reflexivity|].
  unfold u32_max in Hle. nia.
Qed.

Lemma area_profiles_agree_witness :
  (rect_wf (mkRect 30 50) /\ holds sample 0%nat (mkRect 30 50) /\
   area Debug 0%nat sample = Done 1500 sample) /\
  area Release 0%nat sample = Done 1500 sample.
Proof.
  assert (W : rect_wf (mkRect 30 50))
    by (unfold rect_wf, in_u32, u32_max, u32_modulus; simpl; lia).
  split; [split; [exact W | split; reflexivity]|].
  exact (area_profiles_agree sample sample 0%nat (mkRect 30 50) 1500 W eq_refl eq_refl).
Defined.

(** The decimal text that [println!("{}", ..)] prints for a [u32] is a
    non-empty run of digits that reads back as the same number. *)
Theorem display_u32_roundtrip (n : Z) :
  in_u32 n -> parse_dec (display_u32 n) = Some n.
Proof.
  intros Hn. unfold parse_dec.
  pose proof (read_num_display_u32 n EmptyString Hn) as H.
  rewrite str_app_nil in H.
  destruct (display_aux_nonempty 9 n) as (c & s & E).
  change (display_u32 n) with (display_aux 10 n) in *.
  rewrite E in *. rewrite H. reflexivity.
Qed.

Lemma display_u32_roundtrip_witness :
  in_u32 4294967295 /\ parse_dec (display_u32 4294967295) = Some 4294967295.
Proof.
  assert (H : in_u32 4294967295) by (unfold in_u32, u32_max, u32_modulus; lia).
  split; [exact H | exact (display_u32_roundtrip _ H)].
Defined.

(** The [{:?}] text of a [Rect] with [u32] fields reads back as the same
    [Rect], so two such rectangles print the same only if they are equal. *)
Theorem fmt_debug_Rect_roundtrip (r : Rect) :
  rect_wf r ->
  parse_debug_Rect (fmt_debug_Rect r) = Some r /\
  (forall r', rect_wf r' -> fmt_debug_Rect r' = fmt_debug_Rect r -> r' = r).
Proof.
  assert (P : forall q, rect_wf q -> parse_debug_Rect (fmt_debug_Rect q) = Some q).
  { intros [w h] [Hw Hh]. cbn [width height] in *.
    rewrite fmt_debug_Rect_eq. cbn [width height]. unfold parse_debug_Rect.
    rewrite strip_prefix_app, read_num_display_u32 by exact Hw.
    assert (S1 : forall X acc, read_num (", height: " ++ X) acc = (acc, ", height: " ++ X))
      by reflexivity.
    rewrite S1. cbv beta iota zeta.
    rewrite strip_prefix_app, read_num_display_u32 by exact Hh.
    reflexivity. }
  intros Hr. split; [exact (P r Hr)|].
  intros r' Hr' E. pose proof (P r' Hr') as P'. rewrite E, (P r Hr) in P'.
  congruence.
Qed.

Lemma fmt_debug_Rect_roundtrip_witness :
  rect_wf (mkRect 4294967295 0) /\
  parse_debug_Rect (fmt_debug_Rect (mkRect 4294967295 0)) = Some (mkRect 4294967295 0) /\
  (forall r', rect_wf r' -> fmt_debug_Rect r' = fmt_debug_Rect (mkRect 4294967295 0) ->
              r' = mkRect 4294967295 0).
Proof.
  assert (W : rect_wf (mkRect 4294967295 0))
    by (unfold rect_wf, in_u32, u32_max, u32_modulus; simpl; lia).
  split; [exact W | exact (fmt_debug_Rect_roundtrip _ W)].
Defined.
